(** * Crop-Disease-Detection backend: a shallow embedding in Rocq

    Sources: [backend/disease_treatments.py], [backend/model_utils.py],
    [backend/main.py].

    Modelling choices:
    - Python exceptions are the constructors of [exn]; a fallible
      computation returns [res A] ([Ok] or [Raise]).
    - JSON values returned by [json.load] are [json]; a Python dict is an
      association list kept in insertion order ([JObj]).  JSON numbers are
      modelled as integers.
    - Python strings are Rocq byte strings.
    - Floating-point numbers (probabilities, pixel values after division)
      are exact rationals [Q]; float rounding is not modelled. *)

From Stdlib Require Import String Ascii List ZArith QArith Bool Lia.
Import ListNotations.
Open Scope string_scope.

(* ------------------------------------------------------------------ *)
(** ** Python runtime fragment *)

Inductive exn :=
| KeyError (key : string)
| TypeError (msg : string)
| AttributeError (msg : string)
| ValueError (msg : string)
| OSError (msg : string)
| JSONDecodeError (msg : string)
| RuntimeError (msg : string)
| HTTPException (status_code : Z) (detail : string).

Inductive res (A : Type) : Type :=
| Ok (a : A)
| Raise (e : exn).
Arguments Ok {A} a.
Arguments Raise {A} e.

Definition res_bind {A B} (m : res A) (k : A -> res B) : res B :=
  match m with
  | Ok a => k a
  | Raise e => Raise e
  end.

Notation "'do' x <- m ;; k" := (res_bind m (fun x => k))
  (at level 200, x name, m at level 100, k at level 200).

#[local] Set Warnings "-register-all".

(** Values produced by [json.load]. *)
Inductive json :=
| JNull
| JBool (b : bool)
| JNum (z : Z)
| JStr (s : string)
| JArr (l : list json)
| JObj (kv : list (string * json)).

(** Python dict lookup ([d[k]] / [k in d]) on an insertion-ordered dict. *)
Fixpoint dict_get {A} (kv : list (string * A)) (k : string) : option A :=
  match kv with
  | [] => None
  | (k', v) :: rest => if String.eqb k' k then Some v else dict_get rest k
  end.

Definition dict_mem {A} (kv : list (string * A)) (k : string) : bool :=
  match dict_get kv k with Some _ => true | None => false end.

(** [d[k] = v]: an existing key keeps its position and gets the new value,
    a new key is appended. *)
Fixpoint dict_set {A} (kv : list (string * A)) (k : string) (v : A)
  : list (string * A) :=
  match kv with
  | [] => [(k, v)]
  | (k', v') :: rest =>
      if String.eqb k' k then (k', v) :: rest else (k', v') :: dict_set rest k v
  end.

Definition type_name (v : json) : string :=
  match v with
  | JNull => "NoneType"
  | JBool _ => "bool"
  | JNum _ => "int"
  | JStr _ => "str"
  | JArr _ => "list"
  | JObj _ => "dict"
  end.

(** [v.items()] *)
Definition py_items (v : json) : res (list (string * json)) :=
  match v with
  | JObj kv => Ok kv
  | _ => Raise (AttributeError ("'" ++ type_name v ++ "' object has no attribute 'items'"))
  end.

(** [key in v] for a string [key]. *)
Definition py_contains (key : string) (v : json) : res bool :=
  match v with
  | JObj kv => Ok (dict_mem kv key)
  | JArr l => Ok (existsb (fun x => match x with JStr s => String.eqb s key | _ => false end) l)
  | JStr s => Ok (match String.index 0 key s with Some _ => true | None => false end)
  | _ => Raise (TypeError ("argument of type '" ++ type_name v ++ "' is not iterable"))
  end.

(** [v[key]] for a string [key]. *)
Definition py_getitem (v : json) (key : string) : res json :=
  match v with
  | JObj kv => match dict_get kv key with Some x => Ok x | None => Raise (KeyError key) end
  | JArr _ => Raise (TypeError "list indices must be integers or slices, not str")
  | JStr _ => Raise (TypeError "string indices must be integers, not 'str'")
  | _ => Raise (TypeError ("'" ++ type_name v ++ "' object is not subscriptable"))
  end.

Definition nl : string := String "010"%char EmptyString.

(** Decimal rendering of an integer ([str(z)]). *)
Fixpoint pos_digits (fuel : nat) (n : Z) (acc : string) : string :=
  match fuel with
  | O => acc
  | S f =>
      let acc' := String (ascii_of_nat (48 + Z.to_nat (n mod 10))) acc in
      if (n <? 10)%Z then acc' else pos_digits f (n / 10)%Z acc'
  end.

Definition z_str (z : Z) : string :=
  if (z <? 0)%Z then "-" ++ pos_digits (S (Z.to_nat (Z.log2 (- z)))) (- z) EmptyString
  else pos_digits (S (Z.to_nat (Z.log2 z))) z EmptyString.

Definition hex_digit (n : nat) : ascii :=
  if Nat.ltb n 10 then ascii_of_nat (48 + n) else ascii_of_nat (87 + n).

Definition bslash : ascii := "092"%char.
Definition dquote : ascii := "034"%char.

(** [repr(s)] of a string: the quote is ['] unless [s] contains ['] and
    no double quote; backslash, the quote and control bytes are escaped. *)
Definition repr_char (q : ascii) (c : ascii) : string :=
  let n := nat_of_ascii c in
  if Ascii.eqb c bslash then String bslash (String bslash EmptyString)
  else if Ascii.eqb c q then String bslash (String q EmptyString)
  else if Nat.eqb n 10 then "\n"
  else if Nat.eqb n 13 then "\r"
  else if Nat.eqb n 9 then "\t"
  else if Nat.ltb n 32 || Nat.eqb n 127 then
    String bslash (String "x"%char (String (hex_digit (n / 16))
      (String (hex_digit (n mod 16)) EmptyString)))
  else String c EmptyString.

Fixpoint repr_chars (q : ascii) (s : string) : string :=
  match s with
  | EmptyString => EmptyString
  | String c rest => repr_char q c ++ repr_chars q rest
  end.

Fixpoint has_char (c : ascii) (s : string) : bool :=
  match s with
  | EmptyString => false
  | String c' rest => Ascii.eqb c c' || has_char c rest
  end.

Definition repr_str (s : string) : string :=
  let q := if has_char "'"%char s && negb (has_char dquote s) then dquote else "'"%char in
  String q (repr_chars q s ++ String q EmptyString).

(** A Python object rendered by [str()] ([str(x)] is [x] for a string and
    [repr(x)] otherwise). *)
Fixpoint py_repr (v : json) : string :=
  match v with
  | JNull => "None"
  | JBool true => "True"
  | JBool false => "False"
  | JNum z => z_str z
  | JStr s => repr_str s
  | JArr l => "[" ++ String.concat ", " (map py_repr l) ++ "]"
  | JObj kv =>
      "{" ++ String.concat ", " (map (fun '(k, x) => repr_str k ++ ": " ++ py_repr x) kv) ++ "}"
  end.

Definition py_str (v : json) : string :=
  match v with
  | JStr s => s
  | _ => py_repr v
  end.

(** [str(e)] of an exception.  [str(KeyError(k))] is [repr(k)];
    FastAPI's [HTTPException] renders as [status_code: detail]. *)
Definition exn_str (e : exn) : string :=
  match e with
  | KeyError k => repr_str k
  | TypeError m | AttributeError m | ValueError m | OSError m
  | JSONDecodeError m | RuntimeError m => m
  | HTTPException c d => z_str c ++ ": " ++ d
  end.

(* ------------------------------------------------------------------ *)
(** ** [disease_treatments.py] *)

(** Looping with early exit on an exception ([for x in xs: ...]). *)
Fixpoint fold_res {A B} (f : B -> A -> res B) (xs : list A) (acc : B) : res B :=
  match xs with
  | [] => Ok acc
  | x :: rest => do acc' <- f acc x ;; fold_res f rest acc'
  end.

(** [flatten_disease_database]: three nested [.items()] loops,
    [flattened[disease_name] = disease_info]. *)
Definition flatten_disease_database (comprehensive_data : json) : res json :=
  do categories <- py_items comprehensive_data ;;
  do flattened <- fold_res (fun flattened '(category, crops) =>
       do crop_items <- py_items crops ;;
       fold_res (fun flattened '(crop, diseases) =>
         do disease_items <- py_items diseases ;;
         Ok (fold_left (fun fl '(disease_name, disease_info) =>
                dict_set fl disease_name disease_info) disease_items flattened))
         crop_items flattened)
       categories [] ;;
  Ok (JObj flattened).

(** [get_default_treatments] *)
Definition default_treatments : list (string * json) := [
  ("Tomato Bacterial Spot", JObj [
      ("description", JStr "Bacterial spot is a common disease of tomato caused by Xanthomonas vesicatoria");
      ("treatment", JStr "Apply copper-based fungicides, improve air circulation, avoid overhead watering, remove infected plant debris");
      ("prevention", JStr "Use disease-free seeds, practice crop rotation, maintain proper spacing between plants")]);
  ("Tomato Early Blight", JObj [
      ("description", JStr "Early blight is caused by the fungus Alternaria solani");
      ("treatment", JStr "Apply fungicides containing chlorothalonil or copper, remove infected leaves, improve air circulation");
      ("prevention", JStr "Mulch around plants, avoid overhead watering, practice crop rotation")]);
  ("Tomato Late Blight", JObj [
      ("description", JStr "Late blight is caused by the oomycete Phytophthora infestans");
      ("treatment", JStr "Apply fungicides containing chlorothalonil or copper, remove infected plants immediately");
      ("prevention", JStr "Avoid overhead watering, ensure good drainage, practice crop rotation")]);
  ("Tomato Leaf Mold", JObj [
      ("description", JStr "Leaf mold is caused by the fungus Passalora fulva");
      ("treatment", JStr "Apply fungicides, improve air circulation, reduce humidity");
      ("prevention", JStr "Use resistant varieties, maintain proper spacing, avoid overhead watering")]);
  ("Tomato Septoria Leaf Spot", JObj [
      ("description", JStr "Septoria leaf spot is caused by the fungus Septoria lycopersici");
      ("treatment", JStr "Apply fungicides containing chlorothalonil, remove infected leaves");
      ("prevention", JStr "Practice crop rotation, avoid overhead watering, maintain clean garden")]);
  ("Tomato Spider Mites", JObj [
      ("description", JStr "Spider mites are tiny arachnids that feed on plant sap");
      ("treatment", JStr "Apply insecticidal soap or neem oil, increase humidity, remove heavily infested leaves");
      ("prevention", JStr "Regular monitoring, maintain proper humidity, avoid over-fertilization")]);
  ("Tomato Target Spot", JObj [
      ("description", JStr "Target spot is caused by the fungus Corynespora cassiicola");
      ("treatment", JStr "Apply fungicides, improve air circulation, remove infected leaves");
      ("prevention", JStr "Practice crop rotation, maintain proper spacing, avoid overhead watering")]);
  ("Tomato Yellow Leaf Curl Virus", JObj [
      ("description", JStr "Yellow leaf curl virus is transmitted by whiteflies");
      ("treatment", JStr "Control whitefly populations, remove infected plants, apply systemic insecticides");
      ("prevention", JStr "Use resistant varieties, control weeds, monitor for whiteflies")]);
  ("Tomato Mosaic Virus", JObj [
      ("description", JStr "Mosaic virus is transmitted by aphids and mechanical means");
      ("treatment", JStr "Remove infected plants, control aphid populations, disinfect tools");
      ("prevention", JStr "Use disease-free seeds, control aphids, practice good hygiene")]);
  ("Tomato Healthy", JObj [
      ("description", JStr "The tomato plant appears healthy with no visible disease symptoms");
      ("treatment", JStr "Continue current care practices, monitor regularly for any changes");
      ("prevention", JStr "Maintain proper watering, fertilization, and pest management")]);
  ("Potato Early Blight", JObj [
      ("description", JStr "Early blight in potatoes is caused by Alternaria solani");
      ("treatment", JStr "Apply fungicides containing chlorothalonil, remove infected foliage");
      ("prevention", JStr "Practice crop rotation, maintain proper spacing, avoid overhead watering")]);
  ("Potato Late Blight", JObj [
      ("description", JStr "Late blight in potatoes is caused by Phytophthora infestans");
      ("treatment", JStr "Apply fungicides containing chlorothalonil or copper, remove infected plants");
      ("prevention", JStr "Avoid overhead watering, ensure good drainage, practice crop rotation")]);
  ("Potato Healthy", JObj [
      ("description", JStr "The potato plant appears healthy with no visible disease symptoms");
      ("treatment", JStr "Continue current care practices, monitor regularly for any changes");
      ("prevention", JStr "Maintain proper watering, fertilization, and pest management")]);
  ("Corn Northern Leaf Blight", JObj [
      ("description", JStr "Northern leaf blight is caused by the fungus Exserohilum turcicum");
      ("treatment", JStr "Apply fungicides containing azoxystrobin or propiconazole");
      ("prevention", JStr "Use resistant varieties, practice crop rotation, maintain proper spacing")]);
  ("Corn Common Rust", JObj [
      ("description", JStr "Common rust is caused by the fungus Puccinia sorghi");
      ("treatment", JStr "Apply fungicides containing azoxystrobin or propiconazole");
      ("prevention", JStr "Use resistant varieties, practice crop rotation, avoid overhead watering")]);
  ("Corn Gray Leaf Spot", JObj [
      ("description", JStr "Gray leaf spot is caused by the fungus Cercospora zeae-maydis");
      ("treatment", JStr "Apply fungicides containing azoxystrobin or propiconazole");
      ("prevention", JStr "Use resistant varieties, practice crop rotation, maintain proper spacing")]);
  ("Corn Healthy", JObj [
      ("description", JStr "The corn plant appears healthy with no visible disease symptoms");
      ("treatment", JStr "Continue current care practices, monitor regularly for any changes");
      ("prevention", JStr "Maintain proper watering, fertilization, and pest management")])].

Definition get_default_treatments : json := JObj default_treatments.

(** A knowledge-base file as seen by [os.path.exists] and
    [open] + [json.load]: missing, unreadable, not valid JSON, or parsed. *)
Inductive resource :=
| Absent
| Unreadable (msg : string)
| Malformed (msg : string)
| Parsed (data : json).

Definition path_exists (r : resource) : bool :=
  match r with Absent => false | _ => true end.

(** [with open(path) as f: json.load(f)] *)
Definition read_json (r : resource) : res json :=
  match r with
  | Absent => Raise (OSError "No such file or directory")
  | Unreadable m => Raise (OSError m)
  | Malformed m => Raise (JSONDecodeError m)
  | Parsed j => Ok j
  end.

(** The two knowledge-base files under [knowledge_base/]. *)
Record kb_files := {
  comprehensive_disease_treatments : resource;
  disease_treatments : resource
}.

(** Body of the [try] block of [load_treatments_database]. *)
Definition load_treatments_try (fs : kb_files) : res json :=
  if path_exists (comprehensive_disease_treatments fs) then
    do comprehensive_data <- read_json (comprehensive_disease_treatments fs) ;;
    flatten_disease_database comprehensive_data
  else if path_exists (disease_treatments fs) then
    read_json (disease_treatments fs)
  else Ok get_default_treatments.

(** [load_treatments_database]: [except Exception] returns the defaults. *)
Definition load_treatments_database (fs : kb_files) : json :=
  match load_treatments_try fs with
  | Ok db => db
  | Raise _ => get_default_treatments
  end.

Definition no_info_message (disease_name : string) : string :=
  "No specific treatment information available for " ++ disease_name ++
  ". Please consult with a local agricultural extension service or plant pathologist for proper diagnosis and treatment recommendations.".

(** The body of [get_treatment_suggestion] after the database is loaded. *)
Definition treatment_from_db (treatments_db : json) (disease_name : string) : res string :=
  do found <- py_contains disease_name treatments_db ;;
  if found then
    do disease_info <- py_getitem treatments_db disease_name ;;
    do description <- py_getitem disease_info "description" ;;
    do treatment <- py_getitem disease_info "treatment" ;;
    do prevention <- py_getitem disease_info "prevention" ;;
    Ok (py_str description ++ nl ++ nl ++ "Treatment: " ++ py_str treatment ++
        nl ++ nl ++ "Prevention: " ++ py_str prevention)
  else Ok (no_info_message disease_name).

(** [get_treatment_suggestion] *)
Definition get_treatment_suggestion (fs : kb_files) (disease_name : string) : res string :=
  treatment_from_db (load_treatments_database fs) disease_name.

(* ------------------------------------------------------------------ *)
(** ** [model_utils.py]: images and arrays *)

(** PIL image modes: grayscale, grayscale with alpha, RGB, RGB with alpha,
    32-bit integer. *)
Inductive mode := ModeL | ModeLA | ModeRGB | ModeRGBA | ModeI.

Definition mode_eqb (m1 m2 : mode) : bool :=
  match m1, m2 with
  | ModeL, ModeL | ModeLA, ModeLA | ModeRGB, ModeRGB
  | ModeRGBA, ModeRGBA | ModeI, ModeI => true
  | _, _ => false
  end.

Definition bands (m : mode) : nat :=
  match m with
  | ModeL | ModeI => 1
  | ModeLA => 2
  | ModeRGB => 3
  | ModeRGBA => 4
  end.

(** Modes whose bands are stored as 8-bit values. *)
Definition eight_bit (m : mode) : bool :=
  match m with ModeI => false | _ => true end.

(** A decoded PIL image: rows of pixels, each pixel a list of band values. *)
Record image := {
  im_mode : mode;
  im_width : nat;
  im_height : nat;
  im_pixels : list (list (list Z))
}.

(** A resampling filter gives band [b] of output pixel [(x, y)] of the
    source resized to [w] x [h] before PIL stores it; PIL's own filter
    arithmetic is left as a parameter. *)
Definition resample_filter : Type :=
  image -> nat -> nat -> nat -> nat -> nat -> Z.

Definition clip8 (v : Z) : Z := Z.max 0 (Z.min 255 v).

(** [image.resize((w, h))]: same mode, size [w] x [h]; 8-bit modes store
    the filtered value clipped to [0, 255]. *)
Definition resize (filt : resample_filter) (img : image) (size : nat * nat) : image :=
  let '(w, h) := size in
  let m := im_mode img in
  {| im_mode := m;
     im_width := w;
     im_height := h;
     im_pixels :=
       map (fun y => map (fun x => map (fun b =>
              let v := filt img w h x y b in
              if eight_bit m then clip8 v else v)
            (seq 0 (bands m))) (seq 0 w)) (seq 0 h) |}.

(** One pixel of [image.convert("RGB")]: gray is replicated, alpha is
    dropped, 32-bit values are clipped to 8 bits. *)
Definition rgb_of_pixel (m : mode) (px : list Z) : list Z :=
  let c (k : nat) := nth k px 0%Z in
  match m with
  | ModeL | ModeLA => [c O; c O; c O]
  | ModeRGB | ModeRGBA => [c O; c 1%nat; c 2%nat]
  | ModeI => [clip8 (c O); clip8 (c O); clip8 (c O)]
  end.

(** [image.convert("RGB")] *)
Definition convert_rgb (img : image) : image :=
  {| im_mode := ModeRGB;
     im_width := im_width img;
     im_height := im_height img;
     im_pixels := map (map (rgb_of_pixel (im_mode img))) (im_pixels img) |}.

Inductive dtype := Uint8 | Int32 | Float32.

(** A numpy array: shape, element type and row-major data. *)
Record ndarray := {
  shape : list nat;
  arr_dtype : dtype;
  arr_data : list Q
}.

(** [np.array(image)]: one axis per band only for multi-band modes. *)
Definition np_array (img : image) : ndarray :=
  let m := im_mode img in
  {| shape := if Nat.eqb (bands m) 1 then [im_height img; im_width img]
              else [im_height img; im_width img; bands m];
     arr_dtype := if eight_bit m then Uint8 else Int32;
     arr_data := map inject_Z (List.concat (List.concat (im_pixels img))) |}.

(** [a.astype(np.float32)] *)
Definition astype_float32 (a : ndarray) : ndarray :=
  {| shape := shape a; arr_dtype := Float32; arr_data := arr_data a |}.

(** [a / c] for a float32 array and a Python float. *)
Definition div_scalar (a : ndarray) (c : Q) : ndarray :=
  {| shape := shape a; arr_dtype := arr_dtype a;
     arr_data := map (fun v => v / c) (arr_data a) |}.

(** [np.expand_dims(a, axis=0)] *)
Definition expand_dims0 (a : ndarray) : ndarray :=
  {| shape := 1%nat :: shape a; arr_dtype := arr_dtype a; arr_data := arr_data a |}.

(** [preprocess_image(image, target_size)]; [target_size] is
    (width, height). *)
Definition preprocess_image (filt : resample_filter) (img : image)
    (target_size : nat * nat) : ndarray :=
  let image := resize filt img target_size in
  let image_array := np_array image in
  let image_array := div_scalar (astype_float32 image_array) 255 in
  expand_dims0 image_array.

(** A Keras model: the width of its output layer and [model.predict(x)[0]]
    ([inl] when TensorFlow raises). *)
Record keras_model := {
  output_units : nat;
  predict_row : ndarray -> string + list Q
}.

(** [create_dummy_model]: input (224, 224, 3), global average pooling,
    [Dense(85, activation='softmax')].  [dense] is that layer applied to
    the pooled input with its randomly initialised weights. *)
Definition create_dummy_model (dense : ndarray -> list Q) : keras_model :=
  {| output_units := 85; predict_row := fun x => inr (dense x) |}.

(** The model file as seen by [os.path.exists] and
    [tf.keras.models.load_model] ([inl] when loading raises). *)
Record model_file := {
  model_file_exists : bool;
  keras_load_model : string + keras_model
}.

(** Body of the [try] block of [load_model]. *)
Definition load_model_try (mf : model_file) (dense : ndarray -> list Q) : res keras_model :=
  if negb (model_file_exists mf) then Ok (create_dummy_model dense)
  else match keras_load_model mf with
       | inl msg => Raise (OSError msg)
       | inr model => Ok model
       end.

(** [load_model]: [except Exception] falls back to the dummy model. *)
Definition load_model (mf : model_file) (dense : ndarray -> list Q) : res keras_model :=
  match load_model_try mf dense with
  | Ok model => Ok model
  | Raise _ => Ok (create_dummy_model dense)
  end.

(* ------------------------------------------------------------------ *)
(** ** [main.py] *)

(** The label list of [predict_disease]. *)
Definition disease_names : list string := [
  "Wheat Rust"; "Wheat Blast"; "Wheat Scab"; "Wheat Healthy"; "Rice Blast";
  "Rice Brown Spot"; "Rice Bacterial Blight"; "Rice Healthy"; "Corn Northern Leaf Blight";
  "Corn Common Rust"; "Corn Gray Leaf Spot"; "Corn Southern Rust";
  "Corn Healthy"; "Barley Scald"; "Barley Net Blotch"; "Barley Healthy";
  "Tomato Bacterial Spot"; "Tomato Early Blight"; "Tomato Late Blight";
  "Tomato Leaf Mold"; "Tomato Septoria Leaf Spot"; "Tomato Spider Mites";
  "Tomato Target Spot"; "Tomato Yellow Leaf Curl Virus"; "Tomato Mosaic Virus";
  "Tomato Healthy"; "Potato Early Blight"; "Potato Late Blight";
  "Potato Scab"; "Potato Blackleg"; "Potato Healthy"; "Pepper Bacterial Spot";
  "Pepper Anthracnose"; "Pepper Healthy"; "Cucumber Downy Mildew";
  "Cucumber Powdery Mildew"; "Cucumber Anthracnose"; "Cucumber Healthy";
  "Lettuce Downy Mildew"; "Lettuce Bacterial Soft Rot"; "Lettuce Healthy";
  "Carrot Leaf Blight"; "Carrot Root Rot"; "Carrot Healthy"; "Apple Scab";
  "Apple Fire Blight"; "Apple Powdery Mildew"; "Apple Healthy"; "Citrus Canker";
  "Citrus Greening"; "Citrus Melanose"; "Citrus Healthy"; "Grape Downy Mildew";
  "Grape Powdery Mildew"; "Grape Black Rot"; "Grape Healthy"; "Strawberry Powdery Mildew";
  "Strawberry Gray Mold"; "Strawberry Anthracnose"; "Strawberry Healthy";
  "Soybean Rust"; "Soybean Bacterial Blight"; "Soybean Healthy";
  "Bean Anthracnose"; "Bean Rust"; "Bean Healthy"; "Sweet Potato Scab";
  "Sweet Potato Healthy"; "Cassava Mosaic Disease"; "Cassava Brown Streak Disease";
  "Cassava Healthy"].

(** [np.argmax]: the first index of the maximum. *)
Definition Qltb (x y : Q) : bool := negb (Qle_bool y x).

Fixpoint argmax_from (l : list Q) (i best : nat) (best_v : Q) : nat :=
  match l with
  | [] => best
  | x :: rest =>
      if Qltb best_v x then argmax_from rest (S i) i x
      else argmax_from rest (S i) best best_v
  end.

Definition np_argmax (l : list Q) : res nat :=
  match l with
  | [] => Raise (ValueError "attempt to get argmax of an empty sequence")
  | x :: rest => Ok (argmax_from rest 1 0 x)
  end.

(** Round half to even of a rational, as Python's [round] does on the
    exact value. *)
Definition round_half_even (q : Q) : Z :=
  let n := Qnum q in
  let d := Zpos (Qden q) in
  let f := (n / d)%Z in
  let r := (n - f * d)%Z in
  match Z.compare (2 * r) d with
  | Lt => f
  | Gt => (f + 1)%Z
  | Eq => if Z.even f then f else (f + 1)%Z
  end.

(** [round(x, 2)] *)
Definition py_round2 (x : Q) : Q := round_half_even (x * 100) # 100.

(** [disease_names[class_index] if class_index < len(disease_names)
     else "Unknown Disease"] *)
Definition label_of_index (class_index : nat) : string :=
  if Nat.ltb class_index (length disease_names)
  then nth class_index disease_names EmptyString
  else "Unknown Disease".

Record response := {
  disease_name : string;
  confidence_score : Q;
  treatment_suggestion : string
}.

(** An uploaded file: its declared content type and what
    [Image.open(io.BytesIO(await file.read()))] yields ([inl] when PIL
    cannot decode the bytes). *)
Record upload := {
  content_type : string;
  decoded : string + image
}.

(** Process-wide state read by the handlers: the global [model], the
    knowledge-base files and PIL's resampling filter. *)
Record service := {
  model : option keras_model;
  knowledge_base : kb_files;
  pil_filter : resample_filter
}.

(** Calls of the handler that matter for the specification. *)
Inductive event := CallPreprocess | CallPredict.

(** The handler's effects: exceptions and a log of calls. *)
Definition M (A : Type) : Type := list event -> res A * list event.

Definition ret {A} (a : A) : M A := fun log => (Ok a, log).

Definition bindM {A B} (m : M A) (k : A -> M B) : M B :=
  fun log =>
    match m log with
    | (Ok a, log') => k a log'
    | (Raise e, log') => (Raise e, log')
    end.

Notation "'let!' x <- m ;; k" := (bindM m (fun x => k))
  (at level 200, x name, m at level 100, k at level 200).

Definition raise {A} (e : exn) : M A := fun log => (Raise e, log).

Definition lift {A} (r : res A) : M A := fun log => (r, log).

Definition emit (ev : event) : M unit := fun log => (Ok tt, app log [ev]).

(** [try: m except Exception as e: h(e)] *)
Definition try_except {A} (m : M A) (h : exn -> M A) : M A :=
  fun log =>
    match m log with
    | (Raise e, log') => h e log'
    | r => r
    end.

Definition decode_upload (file : upload) : res image :=
  match decoded file with
  | inl msg => Raise (OSError msg)
  | inr img => Ok img
  end.

Definition run_model (m : keras_model) (x : ndarray) : res (list Q) :=
  match predict_row m x with
  | inl msg => Raise (RuntimeError msg)
  | inr predictions => Ok predictions
  end.

(** [if image.mode != "RGB": image = image.convert("RGB")] *)
Definition ensure_rgb (img : image) : image :=
  if mode_eqb (im_mode img) ModeRGB then img else convert_rgb img.

(** The [try] block of [predict_disease]. *)
Definition predict_try (svc : service) (file : upload) : M response :=
  if negb (String.prefix "image/" (content_type file)) then
    raise (HTTPException 400 "File must be an image")
  else
    let! image <- lift (decode_upload file) ;;
    let image := ensure_rgb image in
    let! _ <- emit CallPreprocess ;;
    let processed_image := preprocess_image (pil_filter svc) image (224, 224)%nat in
    match model svc with
    | None => raise (HTTPException 500 "Model not loaded")
    | Some m =>
        let! _ <- emit CallPredict ;;
        let! predictions <- lift (run_model m processed_image) ;;
        let! class_index <- lift (np_argmax predictions) ;;
        let confidence := nth class_index predictions 0 in
        let name := label_of_index class_index in
        let! treatment <- lift (get_treatment_suggestion (knowledge_base svc) name) ;;
        ret {| disease_name := name;
               confidence_score := py_round2 (confidence * 100);
               treatment_suggestion := treatment |}
    end.

(** [predict_disease]: every exception of the [try] block, the
    [HTTPException]s raised inside it included, becomes a 500. *)
Definition predict_disease (svc : service) (file : upload) : M response :=
  try_except (predict_try svc file)
    (fun e => raise (HTTPException 500 ("Prediction failed: " ++ exn_str e))).

(** HTTP status of a handler outcome. *)
Definition status_of {A} (r : res A) : Z :=
  match r with
  | Ok _ => 200
  | Raise (HTTPException c _) => c
  | Raise _ => 500
  end.

(** [load_model_on_startup]: [model = load_model(model_path)]; an
    exception is re-raised. *)
Definition load_model_on_startup (svc : service) (mf : model_file)
    (dense : ndarray -> list Q) : res service :=
  match load_model mf dense with
  | Ok m => Ok {| model := Some m; knowledge_base := knowledge_base svc;
                  pil_filter := pil_filter svc |}
  | Raise e => Raise e
  end.


(** Python dicts built by [json.load] have pairwise distinct keys. *)
Fixpoint keys_unique {A} (kv : list (string * A)) : bool :=
  match kv with
  | [] => true
  | (k, _) :: rest => negb (dict_mem rest k) && keys_unique rest
  end.

(** PIL's [NEAREST] filter: the source pixel whose area contains the
    centre of the output pixel. *)
Definition nearest : resample_filter :=
  fun img (w h x y b : nat) =>
    let sx := Nat.div ((2 * x + 1) * im_width img) (2 * w) in
    let sy := Nat.div ((2 * y + 1) * im_height img) (2 * h) in
    nth b (nth sx (nth sy (im_pixels img) []) []) 0%Z.

(** Sample inputs. *)
Definition sample_record : list (string * json) :=
  [("description", JStr "Plant looks healthy");
   ("treatment", JStr "None needed");
   ("prevention", JStr "Water regularly")].

Definition sample_catalog : json := JObj [("Tomato Healthy", JObj sample_record)].

(** Only the flat knowledge-base file exists. *)
Definition flat_only (db : json) : kb_files :=
  {| comprehensive_disease_treatments := Absent; disease_treatments := Parsed db |}.

(** Neither knowledge-base file exists. *)
Definition no_kb_files : kb_files :=
  {| comprehensive_disease_treatments := Absent; disease_treatments := Absent |}.

(** A 1 x 1 grayscale image and a 1 x 1 RGB image. *)
Definition gray_pixel : image :=
  {| im_mode := ModeL; im_width := 1; im_height := 1; im_pixels := [[[128%Z]]] |}.

Definition rgb_pixel : image :=
  {| im_mode := ModeRGB; im_width := 1; im_height := 1;
     im_pixels := [[[34%Z; 139%Z; 34%Z]]] |}.

Definition png_upload : upload := {| content_type := "image/png"; decoded := inr rgb_pixel |}.

Definition text_upload : upload :=
  {| content_type := "text/plain"; decoded := inl "cannot identify image file" |}.

(** A service whose model outputs [row] for every input. *)
Definition service_with (row : list Q) (kb : kb_files) : service :=
  {| model := Some (create_dummy_model (fun _ => row));
     knowledge_base := kb;
     pil_filter := nearest |}.

(** An 85-wide output row whose maximum is at index 80. *)
Definition peak_at_80 : list Q := List.app (repeat 0 80) (1 :: repeat 0 4).

(** The service before startup. *)
Definition service_no_model : service :=
  {| model := None; knowledge_base := no_kb_files; pil_filter := nearest |}.

(** A three-level knowledge base (category, crop, disease) given level by
    level, as a JSON value, and its innermost entries in iteration order. *)
Definition hierarchy_json (cats : list (string * list (string * list (string * json)))) : json :=
  JObj (map (fun '(c, crops) => (c, JObj (map (fun '(cr, ds) => (cr, JObj ds)) crops))) cats).

Definition hierarchy_entries (cats : list (string * list (string * list (string * json))))
  : list (string * json) :=
  List.concat (map (fun '(_, crops) => List.concat (map snd crops)) cats).

(** A record usable by [get_treatment_suggestion]: an object holding the
    three fields. *)
Definition complete_record (v : json) : Prop :=
  exists r d t p, v = JObj r /\ dict_get r "description" = Some d /\
    dict_get r "treatment" = Some t /\ dict_get r "prevention" = Some p.

(** One [flattened[disease_name] = disease_info] step. *)
Definition set_entry (fl : list (string * json)) (e : string * json) :=
  let '(n, info) := e in dict_set fl n info.

(* ------------------------------------------------------------------ *)
(** ** Properties of the treatment catalog *)

Lemma string_app_assoc : forall a b c : string, (a ++ b) ++ c = a ++ (b ++ c).
Proof. induction a as [|ch a IH]; intros; simpl; [reflexivity | now rewrite IH]. Qed.

Lemma dict_get_app {A} : forall (l1 l2 : list (string * A)) k,
  dict_get (List.app l1 l2) k =
  match dict_get l1 k with Some v => Some v | None => dict_get l2 k end.
Proof.
  induction l1 as [|[k' v'] l1 IH]; intros l2 k; simpl; [reflexivity|].
  destruct (String.eqb k' k); [reflexivity | apply IH].
Qed.

Lemma dict_set_fresh {A} : forall (acc : list (string * A)) k v,
  dict_get acc k = None -> dict_set acc k v = List.app acc [(k, v)].
Proof.
  induction acc as [|[k' v'] acc IH]; intros k v H; simpl in *; [reflexivity|].
  destruct (String.eqb k' k); [discriminate | now rewrite IH].
Qed.

Lemma fold_dict_set_fresh {A} : forall (kv acc : list (string * A)),
  keys_unique kv = true ->
  (forall k, dict_mem kv k = true -> dict_get acc k = None) ->
  fold_left (fun fl '(n, info) => dict_set fl n info) kv acc = List.app acc kv.
Proof.
  induction kv as [|[k v] rest IH]; intros acc Hu Hfresh; simpl.
  - now rewrite app_nil_r.
  - simpl in Hu. apply andb_prop in Hu as [Hk Hrest].
    rewrite dict_set_fresh.
    2:{ apply Hfresh. unfold dict_mem; simpl. now rewrite String.eqb_refl. }
    rewrite IH; [now rewrite <- app_assoc | exact Hrest |].
    intros k' Hk'. rewrite dict_get_app.
    rewrite Hfresh.
    2:{ unfold dict_mem in *; simpl. destruct (String.eqb k k'); [reflexivity | exact Hk']. }
    simpl. destruct (String.eqb k k') eqn:E; [|reflexivity].
    apply String.eqb_eq in E; subst k'.
    unfold dict_mem in Hk, Hk'. destruct (dict_get rest k); discriminate.
Qed.

Lemma treatment_from_db_hit : forall kv name r d t p,
  dict_get kv name = Some (JObj r) ->
  dict_get r "description" = Some d ->
  dict_get r "treatment" = Some t ->
  dict_get r "prevention" = Some p ->
  treatment_from_db (JObj kv) name =
    Ok (py_str d ++ nl ++ nl ++ "Treatment: " ++ py_str t ++
        nl ++ nl ++ "Prevention: " ++ py_str p).
Proof.
  intros kv name r d t p Hr Hd Ht Hp.
  unfold treatment_from_db, py_contains, dict_mem, py_getitem.
  rewrite Hr; cbn [res_bind]. rewrite Hd; cbn [res_bind].
  rewrite Ht; cbn [res_bind]. rewrite Hp; cbn [res_bind].
  reflexivity.
Qed.

Lemma treatment_from_db_miss : forall kv name,
  dict_get kv name = None ->
  treatment_from_db (JObj kv) name = Ok (no_info_message name).
Proof.
  intros kv name H. unfold treatment_from_db, py_contains, dict_mem.
  now rewrite H.
Qed.

(** C1, counterexample: the hierarchical file exists but is not valid JSON
    and the flat file holds a valid catalog; the load returns the default
    table, not the flat catalog. *)
Lemma load_malformed_hierarchy_skips_flat :
  load_treatments_database
    {| comprehensive_disease_treatments := Malformed "Expecting value: line 1 column 1 (char 0)";
       disease_treatments := Parsed sample_catalog |} = get_default_treatments /\
  get_default_treatments <> sample_catalog.
Proof. split; [reflexivity | discriminate]. Qed.

(** C1 (amended): the flat file is read only when the hierarchical file
    does not exist.  A hierarchical file that exists but cannot be read,
    parsed or flattened yields the default table directly, as does a flat
    file that cannot be read or parsed; the load itself never fails. *)
Theorem load_treatments_database_tiers : forall fs,
  load_treatments_database fs =
  match comprehensive_disease_treatments fs with
  | Absent =>
      match disease_treatments fs with
      | Parsed db => db
      | _ => get_default_treatments
      end
  | Parsed data =>
      match flatten_disease_database data with
      | Ok db => db
      | Raise _ => get_default_treatments
      end
  | _ => get_default_treatments
  end.
Proof.
  intros [[| m1 | m1 | data] [| m2 | m2 | db]];
    unfold load_treatments_database, load_treatments_try; simpl; try reflexivity;
    destruct (flatten_disease_database data); reflexivity.
Qed.

(** C3, counterexample: a catalog whose record for the name lacks the
    [treatment] field makes the lookup raise [KeyError('treatment')]. *)
Lemma lookup_incomplete_record_raises :
  get_treatment_suggestion
    (flat_only (JObj [("Tomato Healthy", JObj [("description", JStr "Plant looks healthy")])]))
    "Tomato Healthy" = Raise (KeyError "treatment").
Proof. reflexivity. Qed.

(** C3 (amended): for a catalog that is a JSON object, a name that is not
    a key gives the generic message; a record object with the three fields
    gives the composed message; a record object missing one of the fields
    makes the lookup raise [KeyError] for a missing field (no fall-through
    to the generic message). *)
Theorem get_treatment_suggestion_object_catalog : forall fs kv name,
  load_treatments_database fs = JObj kv ->
  (dict_get kv name = None ->
   get_treatment_suggestion fs name = Ok (no_info_message name)) /\
  (forall r d t p,
   dict_get kv name = Some (JObj r) ->
   dict_get r "description" = Some d ->
   dict_get r "treatment" = Some t ->
   dict_get r "prevention" = Some p ->
   get_treatment_suggestion fs name =
     Ok (py_str d ++ nl ++ nl ++ "Treatment: " ++ py_str t ++
         nl ++ nl ++ "Prevention: " ++ py_str p)) /\
  (forall r f,
   dict_get kv name = Some (JObj r) ->
   In f ["description"; "treatment"; "prevention"] ->
   dict_get r f = None ->
   exists f', In f' ["description"; "treatment"; "prevention"] /\
     dict_get r f' = None /\
     get_treatment_suggestion fs name = Raise (KeyError f')).
Proof.
  intros fs kv name Hdb. unfold get_treatment_suggestion. rewrite Hdb.
  split; [apply treatment_from_db_miss|].
  split; [intros; eapply treatment_from_db_hit; eauto|].
  intros r f Hr Hin Hf.
  unfold treatment_from_db, py_contains, dict_mem, py_getitem.
  rewrite Hr; cbn [res_bind].
  destruct (dict_get r "description") as [d|] eqn:Hd; cbn [res_bind];
    [| exists "description"; simpl; auto].
  destruct (dict_get r "treatment") as [t|] eqn:Ht; cbn [res_bind];
    [| exists "treatment"; simpl; auto].
  destruct (dict_get r "prevention") as [p|] eqn:Hp; cbn [res_bind];
    [| exists "prevention"; simpl; auto].
  exfalso. simpl in Hin.
  destruct Hin as [<-|[<-|[<-|[]]]]; congruence.
Qed.

Lemma get_treatment_suggestion_object_catalog_witness :
  let fs := flat_only sample_catalog in
  (dict_get [("Tomato Healthy", JObj sample_record)] "Tomato Healthy" = None ->
   get_treatment_suggestion fs "Tomato Healthy" = Ok (no_info_message "Tomato Healthy")) /\
  (forall r d t p,
   dict_get [("Tomato Healthy", JObj sample_record)] "Tomato Healthy" = Some (JObj r) ->
   dict_get r "description" = Some d ->
   dict_get r "treatment" = Some t ->
   dict_get r "prevention" = Some p ->
   get_treatment_suggestion fs "Tomato Healthy" =
     Ok (py_str d ++ nl ++ nl ++ "Treatment: " ++ py_str t ++
         nl ++ nl ++ "Prevention: " ++ py_str p)) /\
  (forall r f,
   dict_get [("Tomato Healthy", JObj sample_record)] "Tomato Healthy" = Some (JObj r) ->
   In f ["description"; "treatment"; "prevention"] ->
   dict_get r f = None ->
   exists f', In f' ["description"; "treatment"; "prevention"] /\
     dict_get r f' = None /\
     get_treatment_suggestion fs "Tomato Healthy" = Raise (KeyError f')).
Proof.
  apply (get_treatment_suggestion_object_catalog (flat_only sample_catalog)
           [("Tomato Healthy", JObj sample_record)] "Tomato Healthy").
  reflexivity.
Defined.

(** C8: for a name whose record in the loaded catalog has the three fields,
    the lookup returns exactly
    [description + "\n\nTreatment: " + treatment + "\n\nPrevention: " + prevention]
    (each field rendered by [str()]), which contains [Treatment:] and
    [Prevention:]. *)
Theorem get_treatment_suggestion_hit : forall fs kv name r d t p,
  load_treatments_database fs = JObj kv ->
  dict_get kv name = Some (JObj r) ->
  dict_get r "description" = Some d ->
  dict_get r "treatment" = Some t ->
  dict_get r "prevention" = Some p ->
  exists s, get_treatment_suggestion fs name = Ok s /\
    s = py_str d ++ nl ++ nl ++ "Treatment: " ++ py_str t ++
        nl ++ nl ++ "Prevention: " ++ py_str p /\
    (exists a b, s = a ++ "Treatment:" ++ b) /\
    (exists a b, s = a ++ "Prevention:" ++ b).
Proof.
  intros fs kv name r d t p Hdb Hr Hd Ht Hp.
  eexists. split.
  { unfold get_treatment_suggestion. rewrite Hdb.
    eapply treatment_from_db_hit; eauto. }
  split; [reflexivity|]. split.
  - exists (py_str d ++ nl ++ nl),
      (" " ++ py_str t ++ nl ++ nl ++ "Prevention: " ++ py_str p).
    now rewrite !string_app_assoc.
  - exists (py_str d ++ nl ++ nl ++ "Treatment: " ++ py_str t ++ nl ++ nl),
      (" " ++ py_str p).
    now rewrite !string_app_assoc.
Qed.

Lemma get_treatment_suggestion_hit_witness :
  exists s, get_treatment_suggestion (flat_only sample_catalog) "Tomato Healthy" = Ok s /\
    s = py_str (JStr "Plant looks healthy") ++ nl ++ nl ++ "Treatment: " ++
        py_str (JStr "None needed") ++ nl ++ nl ++ "Prevention: " ++
        py_str (JStr "Water regularly") /\
    (exists a b, s = a ++ "Treatment:" ++ b) /\
    (exists a b, s = a ++ "Prevention:" ++ b).
Proof.
  apply (get_treatment_suggestion_hit (flat_only sample_catalog)
           [("Tomato Healthy", JObj sample_record)] "Tomato Healthy" sample_record);
    reflexivity.
Defined.

(** C9, counterexample: flattening the (flat) default catalog raises
    [AttributeError] instead of returning it. *)
Lemma flatten_flat_catalog_raises :
  flatten_disease_database get_default_treatments =
    Raise (AttributeError "'str' object has no attribute 'items'") /\
  flatten_disease_database get_default_treatments <> Ok get_default_treatments.
Proof. split; [reflexivity | discriminate]. Qed.

(** C9 (amended): a flat catalog [F] with distinct keys wrapped as a
    degenerate hierarchy [{category: {crop: F}}] flattens to [F]; a flat
    catalog whose first record is an object starting with a string field
    cannot be flattened directly ([AttributeError]). *)
Theorem flatten_degenerate_hierarchy :
  (forall category crop kv,
     keys_unique kv = true ->
     flatten_disease_database (JObj [(category, JObj [(crop, JObj kv)])]) = Ok (JObj kv)) /\
  (forall name field s fields rest,
     flatten_disease_database (JObj ((name, JObj ((field, JStr s) :: fields)) :: rest)) =
       Raise (AttributeError "'str' object has no attribute 'items'")).
Proof.
  split.
  - intros category crop kv Hu. unfold flatten_disease_database. simpl.
    rewrite fold_dict_set_fresh; [reflexivity | exact Hu | reflexivity].
  - intros. reflexivity.
Qed.

Lemma flatten_degenerate_hierarchy_witness :
  flatten_disease_database
    (JObj [("Vegetables", JObj [("Tomato", JObj default_treatments)])]) =
  Ok (JObj default_treatments).
Proof.
  apply (proj1 flatten_degenerate_hierarchy). vm_compute. reflexivity.
Defined.

(* ------------------------------------------------------------------ *)
(** ** Properties of the prediction pipeline *)

Lemma argmax_from_spec : forall l p best bv,
  (best < length p)%nat ->
  nth best p 0 = bv ->
  (forall q, In q p -> q <= bv) ->
  (forall j, (j < best)%nat -> nth j p 0 < bv) ->
  let k := argmax_from l (length p) best bv in
  (k < length (p ++ l))%nat /\
  (forall q, In q (p ++ l) -> q <= nth k (p ++ l) 0) /\
  (forall j, (j < k)%nat -> nth j (p ++ l) 0 < nth k (p ++ l) 0).
Proof.
  induction l as [|x rest IH]; intros p best bv Hb Hv Hle Hlt k.
  - subst k; simpl. rewrite app_nil_r. subst bv. auto.
  - subst k; simpl.
    replace (List.app p (x :: rest)) with (List.app (List.app p [x]) rest)
      by (rewrite <- app_assoc; reflexivity).
    replace (S (length p)) with (length (List.app p [x])) by (rewrite length_app; simpl; lia).
    unfold Qltb. destruct (Qle_bool x bv) eqn:E; simpl.
    + apply Qle_bool_iff in E.
      apply IH.
      * rewrite length_app; simpl; lia.
      * rewrite app_nth1; assumption.
      * intros q Hq. apply in_app_or in Hq as [Hq|[<-|[]]]; auto.
      * intros j Hj. rewrite app_nth1 by lia. auto.
    + assert (Hx : bv < x).
      { apply Qnot_le_lt. intro C. apply Qle_bool_iff in C. congruence. }
      apply IH.
      * rewrite length_app; simpl; lia.
      * rewrite app_nth2 by lia. now rewrite Nat.sub_diag.
      * intros q Hq. apply in_app_or in Hq as [Hq|[<-|[]]].
        -- apply Qlt_le_weak. eapply Qle_lt_trans; eauto.
        -- apply Qle_refl.
      * intros j Hj. rewrite app_nth1 by lia.
        destruct (Nat.lt_ge_cases j best) as [Hjb|Hjb].
        -- eapply Qlt_trans; eauto.
        -- destruct (Nat.eq_dec j best) as [->|Hne].
           ++ now rewrite Hv.
           ++ eapply Qle_lt_trans; [apply Hle, nth_In; lia | exact Hx].
Qed.

(** [np.argmax]: a valid index of a maximum, strictly above every earlier
    entry. *)
Lemma np_argmax_spec : forall l i,
  np_argmax l = Ok i ->
  (i < length l)%nat /\
  (forall q, In q l -> q <= nth i l 0) /\
  (forall j, (j < i)%nat -> nth j l 0 < nth i l 0).
Proof.
  intros [|x rest] i H; simpl in H; [discriminate|].
  injection H as <-.
  apply (argmax_from_spec rest [x] 0 x); simpl; auto.
  - intros q [<-|[]]. apply Qle_refl.
  - intros j Hj. lia.
Qed.

Lemma np_argmax_first_one : forall n,
  np_argmax (1 :: repeat 0 n) = Ok 0%nat.
Proof.
  intros n. simpl. generalize 1%nat as i.
  induction n as [|n IH]; intros i; simpl; [reflexivity|].
  apply IH.
Qed.

Lemma treatment_from_db_not_http : forall db n c d,
  treatment_from_db db n <> Raise (HTTPException c d).
Proof.
  intros db n c d. unfold treatment_from_db.
  destruct (py_contains n db) as [found|e] eqn:Hc; cbn [res_bind].
  2:{ destruct db; simpl in Hc; try discriminate; injection Hc as <-; discriminate. }
  destruct found; [|discriminate].
  destruct (py_getitem db n) as [info|e] eqn:Hi; cbn [res_bind].
  2:{ destruct db; simpl in Hi; try destruct (dict_get kv n);
      try discriminate; injection Hi as <-; discriminate. }
  unfold py_getitem at 1 2 3.
  destruct info; cbn [res_bind]; try discriminate.
  destruct (dict_get kv "description"); cbn [res_bind]; try discriminate.
  destruct (dict_get kv "treatment"); cbn [res_bind]; try discriminate.
  destruct (dict_get kv "prevention"); cbn [res_bind]; discriminate.
Qed.

(** The handler once the image is decoded and the model has produced its
    output row. *)
Lemma predict_disease_after_model : forall svc file img m predictions log,
  String.prefix "image/" (content_type file) = true ->
  decoded file = inr img ->
  model svc = Some m ->
  predict_row m (preprocess_image (pil_filter svc) (ensure_rgb img) (224, 224)%nat)
    = inr predictions ->
  fst (predict_disease svc file log) =
    match np_argmax predictions with
    | Raise e => Raise (HTTPException 500 ("Prediction failed: " ++ exn_str e))
    | Ok i =>
        match get_treatment_suggestion (knowledge_base svc) (label_of_index i) with
        | Ok t => Ok {| disease_name := label_of_index i;
                        confidence_score := py_round2 (nth i predictions 0 * 100);
                        treatment_suggestion := t |}
        | Raise e => Raise (HTTPException 500 ("Prediction failed: " ++ exn_str e))
        end
    end.
Proof.
  intros svc file img m predictions log Hct Hdec Hm Hrun.
  unfold predict_disease, try_except, predict_try.
  rewrite Hct. cbn [negb].
  unfold bindM at 1, lift at 1, decode_upload. rewrite Hdec.
  unfold bindM at 1, emit. rewrite Hm.
  unfold bindM at 1, lift at 1, run_model. rewrite Hrun.
  unfold bindM at 1, lift at 1.
  destruct (np_argmax predictions) as [i|e]; [|reflexivity].
  unfold bindM, lift.
  destruct (get_treatment_suggestion (knowledge_base svc) (label_of_index i)); reflexivity.
Qed.

(** C2 (code defect): an upload whose content type does not start with
    [image/] never reaches [preprocess_image] (the call log is unchanged),
    but the [HTTPException(400)] raised for it is caught by the handler's
    [except Exception] and re-raised as a 500. *)
Theorem predict_non_image_rejected_as_500 : forall svc file log,
  String.prefix "image/" (content_type file) = false ->
  predict_disease svc file log =
    (Raise (HTTPException 500 "Prediction failed: 400: File must be an image"), log) /\
  status_of (fst (predict_disease svc file log)) = 500%Z.
Proof.
  intros svc file log H.
  assert (E : predict_disease svc file log =
    (Raise (HTTPException 500 "Prediction failed: 400: File must be an image"), log)).
  { unfold predict_disease, try_except, predict_try. rewrite H. reflexivity. }
  split; [exact E | now rewrite E].
Qed.

Lemma predict_non_image_rejected_as_500_witness :
  predict_disease service_no_model text_upload [] =
    (Raise (HTTPException 500 "Prediction failed: 400: File must be an image"), []) /\
  status_of (fst (predict_disease service_no_model text_upload [])) = 500%Z.
Proof. apply predict_non_image_rejected_as_500. reflexivity. Defined.

Lemma ensure_rgb_mode : forall img, im_mode (ensure_rgb img) = ModeRGB.
Proof. intros [m w h px]; destruct m; reflexivity. Qed.

Lemma resize_8bit_range : forall filt img w h v,
  eight_bit (im_mode img) = true ->
  In v (List.concat (List.concat (im_pixels (resize filt img (w, h))))) ->
  (0 <= v <= 255)%Z.
Proof.
  intros filt img w h v H8 Hin. simpl in Hin. rewrite H8 in Hin.
  apply in_concat in Hin as [px [Hpx Hv]].
  apply in_concat in Hpx as [row [Hrow Hpx]].
  apply in_map_iff in Hrow as [y [<- _]].
  apply in_map_iff in Hpx as [x [<- _]].
  apply in_map_iff in Hv as [b [<- _]].
  unfold clip8. lia.
Qed.

Lemma div255_range : forall v, (0 <= v <= 255)%Z -> 0 <= inject_Z v / 255 <= 1.
Proof.
  intros v Hv. unfold Qle, Qdiv, Qmult, Qinv, inject_Z; simpl. lia.
Qed.

(** C4, counterexample: [preprocess_image] does not convert a grayscale
    image itself; the tensor has no channel axis. *)
Lemma preprocess_gray_has_no_channel_axis :
  shape (preprocess_image nearest gray_pixel (224, 224)%nat) = [1; 224; 224]%nat /\
  shape (preprocess_image nearest gray_pixel (224, 224)%nat) <> [1; 224; 224; 3]%nat.
Proof. split; [reflexivity | discriminate]. Qed.

(** C4 (amended): [preprocess_image] resizes to [target_size], casts to
    float32, divides by 255 and prepends a batch axis, keeping the image's
    own bands (no channel axis for single-band modes); it does not convert.
    The predict handler converts every non-RGB image to RGB before calling
    it, so on that path the tensor has shape (1, 224, 224, 3), dtype
    float32 and values in [0, 1]. *)
Theorem preprocess_image_shape_and_predict_path :
  (forall filt img w h,
     shape (preprocess_image filt img (w, h)) =
       1%nat :: h :: w ::
         (if Nat.eqb (bands (im_mode img)) 1 then [] else [bands (im_mode img)]) /\
     arr_dtype (preprocess_image filt img (w, h)) = Float32) /\
  (forall filt img,
     let t := preprocess_image filt (ensure_rgb img) (224, 224)%nat in
     shape t = [1; 224; 224; 3]%nat /\ arr_dtype t = Float32 /\
     Forall (fun v => 0 <= v <= 1) (arr_data t)).
Proof.
  split.
  - intros filt img w h. simpl.
    destruct (Nat.eqb (bands (im_mode img)) 1); split; reflexivity.
  - intros filt img t. subst t.
    assert (Hm := ensure_rgb_mode img).
    unfold preprocess_image, expand_dims0, div_scalar, astype_float32, np_array.
    cbn [shape arr_dtype arr_data].
    replace (im_mode (resize filt (ensure_rgb img) (224, 224)%nat)) with ModeRGB
      by (simpl; now rewrite Hm).
    split; [reflexivity|]. split; [reflexivity|].
    apply Forall_forall. intros q Hq.
    apply in_map_iff in Hq as [z [<- Hz]].
    apply in_map_iff in Hz as [v [<- Hv]].
    apply div255_range. eapply resize_8bit_range; [|exact Hv].
    now rewrite Hm.
Qed.

(** C5 (code defect): the label list has 71 entries while the dummy
    model's output layer has 85 units; every index from 71 to 84 maps to
    "Unknown Disease", and an 85-wide output peaking at its last unit has
    argmax 84. *)
Theorem label_set_shorter_than_dummy_output : forall dense,
  length disease_names = 71%nat /\
  output_units (create_dummy_model dense) = 85%nat /\
  Forall (fun i => label_of_index i = "Unknown Disease") (seq 71 14) /\
  np_argmax (List.app (repeat 0 84) [1]) = Ok 84%nat.
Proof.
  intros dense. split; [reflexivity|]. split; [reflexivity|].
  split; [repeat constructor | vm_compute; reflexivity].
Qed.

(** C6, counterexample: argmax 80 is past the 71 labels, so the handler
    uses "Unknown Disease"; with a knowledge base holding an incomplete
    "Unknown Disease" record the lookup raises and the request fails
    with 500. *)
Lemma predict_unknown_disease_incomplete_record_fails :
  fst (predict_disease
         (service_with (peak_at_80)
            (flat_only (JObj [("Unknown Disease", JObj [])])))
         png_upload []) =
    Raise (HTTPException 500 "Prediction failed: 'description'").
Proof. vm_compute. reflexivity. Qed.

(** C6 (amended): when the argmax index is past the label list the handler
    uses "Unknown Disease" instead of raising; the request then succeeds
    exactly when the treatment lookup of "Unknown Disease" succeeds, in
    particular whenever the loaded catalog is an object without that key. *)
Theorem predict_out_of_range_index : forall svc file img m predictions i log,
  String.prefix "image/" (content_type file) = true ->
  decoded file = inr img ->
  model svc = Some m ->
  predict_row m (preprocess_image (pil_filter svc) (ensure_rgb img) (224, 224)%nat)
    = inr predictions ->
  np_argmax predictions = Ok i ->
  (length disease_names <= i)%nat ->
  fst (predict_disease svc file log) =
    match get_treatment_suggestion (knowledge_base svc) "Unknown Disease" with
    | Ok t => Ok {| disease_name := "Unknown Disease";
                    confidence_score := py_round2 (nth i predictions 0 * 100);
                    treatment_suggestion := t |}
    | Raise e => Raise (HTTPException 500 ("Prediction failed: " ++ exn_str e))
    end /\
  (forall kv,
     load_treatments_database (knowledge_base svc) = JObj kv ->
     dict_get kv "Unknown Disease" = None ->
     fst (predict_disease svc file log) =
       Ok {| disease_name := "Unknown Disease";
             confidence_score := py_round2 (nth i predictions 0 * 100);
             treatment_suggestion := no_info_message "Unknown Disease" |}).
Proof.
  intros svc file img m predictions i log Hct Hdec Hm Hrun Harg Hi.
  assert (Hl : label_of_index i = "Unknown Disease").
  { unfold label_of_index. destruct (Nat.ltb_spec i (length disease_names)); [lia | reflexivity]. }
  rewrite (predict_disease_after_model svc file img m predictions log Hct Hdec Hm Hrun).
  rewrite Harg, Hl. split; [reflexivity|].
  intros kv Hdb Hnone. unfold get_treatment_suggestion. rewrite Hdb.
  rewrite treatment_from_db_miss by exact Hnone. reflexivity.
Qed.

Lemma predict_out_of_range_index_witness :
  fst (predict_disease (service_with (peak_at_80) no_kb_files)
         png_upload []) =
    match get_treatment_suggestion no_kb_files "Unknown Disease" with
    | Ok t => Ok {| disease_name := "Unknown Disease";
                    confidence_score := py_round2 (nth 80 (peak_at_80) 0 * 100);
                    treatment_suggestion := t |}
    | Raise e => Raise (HTTPException 500 ("Prediction failed: " ++ exn_str e))
    end /\
  (forall kv,
     load_treatments_database no_kb_files = JObj kv ->
     dict_get kv "Unknown Disease" = None ->
     fst (predict_disease (service_with (peak_at_80) no_kb_files)
            png_upload []) =
       Ok {| disease_name := "Unknown Disease";
             confidence_score := py_round2 (nth 80 (peak_at_80) 0 * 100);
             treatment_suggestion := no_info_message "Unknown Disease" |}).
Proof.
  apply (predict_out_of_range_index
           (service_with (peak_at_80) no_kb_files) png_upload
           rgb_pixel (create_dummy_model (fun _ => peak_at_80))
           (peak_at_80) 80 []);
    try reflexivity; vm_compute; try reflexivity; lia.
Defined.

(** C7: when the handler answers, the reported label and confidence come
    from [np.argmax] of the model's output row: a maximal entry, the first
    one among ties, times 100 rounded to 2 decimals.  For the row
    [1, 0, ..., 0] the label is the first one of the list and the
    confidence is 100.0. *)
Theorem predict_confidence_is_rounded_max :
  forall svc file img m predictions resp log log',
  decoded file = inr img ->
  model svc = Some m ->
  predict_row m (preprocess_image (pil_filter svc) (ensure_rgb img) (224, 224)%nat)
    = inr predictions ->
  predict_disease svc file log = (Ok resp, log') ->
  exists i, np_argmax predictions = Ok i /\
    (i < length predictions)%nat /\
    (forall q, In q predictions -> q <= nth i predictions 0) /\
    (forall j, (j < i)%nat -> nth j predictions 0 < nth i predictions 0) /\
    disease_name resp = label_of_index i /\
    confidence_score resp = py_round2 (nth i predictions 0 * 100) /\
    (forall n, predictions = 1 :: repeat 0 n ->
       i = 0%nat /\ disease_name resp = nth 0 disease_names EmptyString /\
       confidence_score resp == 100).
Proof.
  intros svc file img m predictions resp log log' Hdec Hm Hrun Hok.
  assert (Hct : String.prefix "image/" (content_type file) = true).
  { destruct (String.prefix "image/" (content_type file)) eqn:E; [reflexivity|].
    unfold predict_disease, try_except, predict_try in Hok. rewrite E in Hok.
    discriminate. }
  assert (Hf := predict_disease_after_model svc file img m predictions log Hct Hdec Hm Hrun).
  rewrite Hok in Hf. cbn [fst] in Hf.
  destruct (np_argmax predictions) as [i|e] eqn:Harg; [|discriminate].
  destruct (get_treatment_suggestion (knowledge_base svc) (label_of_index i));
    [|discriminate].
  injection Hf as ->.
  destruct (np_argmax_spec predictions i Harg) as (Hi & Hmax & Hfirst).
  exists i. split; [reflexivity|]. split; [exact Hi|]. split; [exact Hmax|].
  split; [exact Hfirst|]. split; [reflexivity|]. split; [reflexivity|].
  intros n Hp. subst predictions.
  rewrite np_argmax_first_one in Harg. injection Harg as <-.
  split; [reflexivity|]. split; [reflexivity|].
  reflexivity.
Qed.

Lemma predict_confidence_is_rounded_max_witness :
  exists i, np_argmax (1 :: repeat 0 84) = Ok i /\
    (i < length (1 :: repeat 0 84))%nat /\
    (forall q, In q (1 :: repeat 0 84) -> q <= nth i (1 :: repeat 0 84) 0) /\
    (forall j, (j < i)%nat -> nth j (1 :: repeat 0 84) 0 < nth i (1 :: repeat 0 84) 0) /\
    disease_name {| disease_name := "Wheat Rust";
                    confidence_score := py_round2 (1 * 100);
                    treatment_suggestion := no_info_message "Wheat Rust" |}
      = label_of_index i /\
    confidence_score {| disease_name := "Wheat Rust";
                        confidence_score := py_round2 (1 * 100);
                        treatment_suggestion := no_info_message "Wheat Rust" |}
      = py_round2 (nth i (1 :: repeat 0 84) 0 * 100) /\
    (forall n, 1 :: repeat 0 84 = 1 :: repeat 0 n ->
       i = 0%nat /\
       disease_name {| disease_name := "Wheat Rust";
                       confidence_score := py_round2 (1 * 100);
                       treatment_suggestion := no_info_message "Wheat Rust" |}
         = nth 0 disease_names EmptyString /\
       confidence_score {| disease_name := "Wheat Rust";
                           confidence_score := py_round2 (1 * 100);
                           treatment_suggestion := no_info_message "Wheat Rust" |} == 100).
Proof.
  apply (predict_confidence_is_rounded_max
           (service_with (1 :: repeat 0 84) no_kb_files) png_upload rgb_pixel
           (create_dummy_model (fun _ => 1 :: repeat 0 84)) (1 :: repeat 0 84)
           {| disease_name := "Wheat Rust";
              confidence_score := py_round2 (1 * 100);
              treatment_suggestion := no_info_message "Wheat Rust" |}
           [] [CallPreprocess; CallPredict]);
    vm_compute; reflexivity.
Defined.

(** C10: [load_model] returns a model for every model file (missing,
    unloadable or loadable); the startup hook therefore always sets the
    global [model], and afterwards the handler never raises
    "Model not loaded". *)
Theorem startup_always_loads_a_model : forall svc mf dense,
  (exists m, load_model mf dense = Ok m) /\
  exists svc', load_model_on_startup svc mf dense = Ok svc' /\
    model svc' <> None /\
    forall file log,
      fst (predict_try svc' file log) <> Raise (HTTPException 500 "Model not loaded").
Proof.
  intros svc mf dense.
  assert (Hload : exists m, load_model mf dense = Ok m).
  { unfold load_model. destruct (load_model_try mf dense); eexists; reflexivity. }
  split; [exact Hload|].
  destruct Hload as [m Hm].
  eexists. unfold load_model_on_startup. rewrite Hm. split; [reflexivity|].
  split; [discriminate|].
  intros file log. unfold predict_try. cbn [model].
  destruct (String.prefix "image/" (content_type file)); cbn [negb].
  2:{ unfold raise. cbn [fst]. intro H. injection H. discriminate. }
  unfold bindM at 1, lift at 1, decode_upload.
  destruct (decoded file) as [msg|img]; [discriminate|].
  unfold bindM at 1, emit, bindM at 1, lift at 1, run_model.
  destruct (predict_row m _) as [msg|predictions]; [discriminate|].
  unfold bindM at 1, lift at 1.
  destruct (np_argmax predictions) as [i|e] eqn:Harg.
  2:{ destruct predictions; simpl in Harg; [|discriminate].
      injection Harg as <-. discriminate. }
  unfold bindM, lift, ret.
  destruct (get_treatment_suggestion _ (label_of_index i)) as [t|e] eqn:Ht;
    [discriminate|].
  cbn [fst]. intro H. injection H as ->.
  exact (treatment_from_db_not_http _ _ _ _ Ht).
Qed.

Lemma startup_always_loads_a_model_witness :
  (exists m, load_model {| model_file_exists := true;
                           keras_load_model := inl "Unable to open file" |}
                        (fun _ => repeat 0 85) = Ok m) /\
  exists svc', load_model_on_startup service_no_model
                 {| model_file_exists := true; keras_load_model := inl "Unable to open file" |}
                 (fun _ => repeat 0 85) = Ok svc' /\
    model svc' <> None /\
    forall file log,
      fst (predict_try svc' file log) <> Raise (HTTPException 500 "Model not loaded").
Proof.
  exact (startup_always_loads_a_model service_no_model
           {| model_file_exists := true; keras_load_model := inl "Unable to open file" |}
           (fun _ => repeat 0 85)).
Defined.

(* ------------------------------------------------------------------ *)
(** ** Further properties of the treatment catalog *)

Lemma dict_get_set {A} : forall (acc : list (string * A)) k v k',
  dict_get (dict_set acc k v) k' =
  if String.eqb k k' then Some v else dict_get acc k'.
Proof.
  induction acc as [|[k1 v1] acc IH]; intros k v k'; simpl; [reflexivity|].
  destruct (String.eqb_spec k1 k) as [->|Hne]; simpl.
  - destruct (String.eqb k k'); reflexivity.
  - rewrite IH. destruct (String.eqb_spec k1 k') as [->|Hne'];
      destruct (String.eqb_spec k k') as [->|]; congruence.
Qed.

Lemma keys_unique_dict_set {A} : forall (acc : list (string * A)) k v,
  keys_unique (dict_set acc k v) = keys_unique acc.
Proof.
  induction acc as [|[k1 v1] acc IH]; intros k v; simpl; [reflexivity|].
  destruct (String.eqb_spec k1 k) as [->|Hne]; simpl; [reflexivity|].
  rewrite IH. unfold dict_mem. rewrite dict_get_set.
  destruct (String.eqb_spec k k1); [congruence | reflexivity].
Qed.

Lemma dict_get_fold_set : forall l acc k,
  dict_get (fold_left set_entry l acc) k =
  match dict_get (rev l) k with Some v => Some v | None => dict_get acc k end.
Proof.
  induction l as [|[k1 v1] l IH]; intros acc k; simpl; [reflexivity|].
  rewrite IH, dict_get_app, dict_get_set. simpl.
  destruct (dict_get (rev l) k); [reflexivity|].
  destruct (String.eqb k1 k); reflexivity.
Qed.

Lemma keys_unique_fold_set : forall l acc,
  keys_unique (fold_left set_entry l acc) = keys_unique acc.
Proof.
  induction l as [|[k1 v1] l IH]; intros acc; simpl; [reflexivity|].
  rewrite IH. apply keys_unique_dict_set.
Qed.

Lemma flatten_crops : forall crops acc,
  fold_res (fun (flattened : list (string * json)) '((crop, diseases) : string * json) =>
      do disease_items <- py_items diseases ;;
      Ok (fold_left (fun fl '(disease_name, disease_info) =>
             dict_set fl disease_name disease_info) disease_items flattened))
    (map (fun '(cr, ds) => (cr, JObj ds)) crops) acc
  = Ok (fold_left set_entry (List.concat (map snd crops)) acc).
Proof.
  induction crops as [|[cr ds] crops IH]; intros acc; simpl; [reflexivity|].
  rewrite IH, fold_left_app. reflexivity.
Qed.

Lemma flatten_hierarchy_json : forall cats,
  flatten_disease_database (hierarchy_json cats) =
  Ok (JObj (fold_left set_entry (hierarchy_entries cats) [])).
Proof.
  intros cats. unfold flatten_disease_database, hierarchy_json, hierarchy_entries.
  cbn [py_items res_bind].
  generalize (@nil (string * json)) as acc.
  induction cats as [|[c crops] cats IH]; intros acc; simpl; [reflexivity|].
  rewrite flatten_crops. simpl. rewrite IH, fold_left_app. reflexivity.
Qed.

(** [flatten_disease_database] on a well-formed three-level knowledge base:
    the result has pairwise distinct keys, a disease name is present iff
    some crop lists it, and when several crops list the same name the
    record of the last one in iteration order wins. *)
Theorem flatten_last_write_wins : forall cats,
  exists fl, flatten_disease_database (hierarchy_json cats) = Ok (JObj fl) /\
    keys_unique fl = true /\
    forall k, dict_get fl k = dict_get (rev (hierarchy_entries cats)) k.
Proof.
  intros cats. eexists. split; [apply flatten_hierarchy_json|]. split.
  - now rewrite keys_unique_fold_set.
  - intros k. rewrite dict_get_fold_set. simpl.
    destruct (dict_get (rev (hierarchy_entries cats)) k); reflexivity.
Qed.

Lemma dict_get_in {A} : forall (kv : list (string * A)) k v,
  dict_get kv k = Some v -> exists k', In (k', v) kv.
Proof.
  induction kv as [|[k1 v1] kv IH]; intros k v H; simpl in H; [discriminate|].
  destruct (String.eqb k1 k).
  - injection H as <-. exists k1. now left.
  - destruct (IH k v H) as [k' Hin]. exists k'. now right.
Qed.

Lemma complete_catalog_lookup : forall kv name,
  Forall (fun e => complete_record (snd e)) kv ->
  exists s, treatment_from_db (JObj kv) name = Ok s.
Proof.
  intros kv name Hall.
  destruct (dict_get kv name) as [v|] eqn:Hv.
  - destruct (dict_get_in kv name v Hv) as [k' Hin].
    rewrite Forall_forall in Hall.
    assert (Hc := Hall (k', v) Hin). cbn [snd] in Hc.
    destruct Hc as (r & d & t & p & -> & Hd & Ht & Hp).
    eexists. eapply treatment_from_db_hit; eauto.
  - eexists. now apply treatment_from_db_miss.
Qed.

Lemma default_treatments_complete :
  Forall (fun e => complete_record (snd e)) default_treatments.
Proof.
  unfold default_treatments.
  repeat apply Forall_cons; try apply Forall_nil;
    unfold complete_record; simpl; do 4 eexists; repeat split; reflexivity.
Qed.

(** [get_treatment_suggestion] never raises when the loaded catalog is a
    JSON object all of whose records are objects with the three fields:
    every name, listed or not, gets a message. *)
Theorem complete_catalog_never_raises : forall fs kv name,
  load_treatments_database fs = JObj kv ->
  Forall (fun e => complete_record (snd e)) kv ->
  exists s, get_treatment_suggestion fs name = Ok s.
Proof.
  intros fs kv name Hload Hall. unfold get_treatment_suggestion.
  rewrite Hload. now apply complete_catalog_lookup.
Qed.

Lemma complete_catalog_never_raises_witness :
  load_treatments_database (flat_only sample_catalog) = JObj [("Tomato Healthy", JObj sample_record)] /\
  exists s, get_treatment_suggestion (flat_only sample_catalog) "Potato Late Blight" = Ok s.
Proof.
  split; [reflexivity|].
  apply (complete_catalog_never_raises (flat_only sample_catalog)
           [("Tomato Healthy", JObj sample_record)]); [reflexivity|].
  repeat constructor. unfold complete_record; simpl.
  do 4 eexists; repeat split; reflexivity.
Defined.

(** Whenever the load falls back to [get_default_treatments] (no file, or
    any failure while loading), [get_treatment_suggestion] succeeds for
    every name: the 17 default records all have the three fields. *)
Theorem default_catalog_never_raises : forall fs name,
  load_treatments_database fs = get_default_treatments ->
  exists s, get_treatment_suggestion fs name = Ok s.
Proof.
  intros fs name Hload. unfold get_treatment_suggestion.
  rewrite Hload. apply complete_catalog_lookup, default_treatments_complete.
Qed.

Lemma default_catalog_never_raises_witness :
  load_treatments_database no_kb_files = get_default_treatments /\
  exists s, get_treatment_suggestion no_kb_files "Unknown Disease" = Ok s.
Proof.
  split; [reflexivity|].
  apply default_catalog_never_raises. reflexivity.
Defined.



(** A flat knowledge-base file that parses to [null], a boolean or a
    number is returned by the load as is; every lookup on it then raises
    [TypeError] from the [in] test. *)
Theorem scalar_catalog_raises : forall fs v name,
  load_treatments_database fs = v ->
  (v = JNull \/ (exists b, v = JBool b) \/ (exists z, v = JNum z)) ->
  get_treatment_suggestion fs name =
    Raise (TypeError ("argument of type '" ++ type_name v ++ "' is not iterable")).
Proof.
  intros fs v name Hload Hv. unfold get_treatment_suggestion, treatment_from_db.
  rewrite Hload.
  destruct Hv as [->|[[b ->]|[z ->]]]; reflexivity.
Qed.

Lemma scalar_catalog_raises_witness :
  load_treatments_database (flat_only (JNum 3)) = JNum 3 /\
  get_treatment_suggestion (flat_only (JNum 3)) "Tomato Healthy" =
    Raise (TypeError ("argument of type '" ++ type_name (JNum 3) ++ "' is not iterable")).
Proof.
  split; [reflexivity|].
  apply scalar_catalog_raises; [reflexivity|]. right; right; eexists; reflexivity.
Defined.

(* ------------------------------------------------------------------ *)
(** ** Further properties of the prediction handler *)


(** The call log of one request: the classifier is only called after the
    preprocessor, each at most once, and a response means both ran. *)
Theorem predict_call_order : forall svc file log,
  (snd (predict_disease svc file log) = log \/
   snd (predict_disease svc file log) = List.app log [CallPreprocess] \/
   snd (predict_disease svc file log) = List.app log [CallPreprocess; CallPredict]) /\
  (forall resp, fst (predict_disease svc file log) = Ok resp ->
     snd (predict_disease svc file log) = List.app log [CallPreprocess; CallPredict]).
Proof.
  intros svc file log.
  unfold predict_disease, try_except, predict_try.
  repeat (cbn [bindM lift decode_upload emit run_model ret raise fst snd negb];
          match goal with
          | |- context [match ?x with _ => _ end] =>
              lazymatch type of x with (_ * _)%type => fail | _ => destruct x end
          end);
  cbn [fst snd];
  (split;
   [ first [ left; reflexivity | right; left; reflexivity
           | right; right; now rewrite <- app_assoc ]
   | intros ? Hr; first [ discriminate Hr | now rewrite <- app_assoc ] ]).
Qed.



(** Before the startup hook has set [model], a decodable image is still
    preprocessed, and then the request fails with the rewrapped
    [Model not loaded] error. *)
Theorem predict_before_startup : forall svc file img log,
  String.prefix "image/" (content_type file) = true ->
  decoded file = inr img ->
  model svc = None ->
  predict_disease svc file log =
    (Raise (HTTPException 500 "Prediction failed: 500: Model not loaded"),
     List.app log [CallPreprocess]).
Proof.
  intros svc file img log Hct Hdec Hm.
  unfold predict_disease, try_except, predict_try.
  rewrite Hct. unfold bindM, lift, decode_upload, emit. rewrite Hdec, Hm.
  reflexivity.
Qed.

Lemma predict_before_startup_witness :
  predict_disease service_no_model png_upload [] =
    (Raise (HTTPException 500 "Prediction failed: 500: Model not loaded"),
     [CallPreprocess]).
Proof.
  exact (predict_before_startup service_no_model png_upload rgb_pixel []
           eq_refl eq_refl eq_refl).
Defined.

(** A model whose output row is empty: [np.argmax] raises and the request
    fails with its message, after both calls. *)
Theorem predict_empty_output_row : forall svc file img m log,
  String.prefix "image/" (content_type file) = true ->
  decoded file = inr img ->
  model svc = Some m ->
  predict_row m (preprocess_image (pil_filter svc) (ensure_rgb img) (224, 224)%nat)
    = inr [] ->
  predict_disease svc file log =
    (Raise (HTTPException 500
              "Prediction failed: attempt to get argmax of an empty sequence"),
     List.app log [CallPreprocess; CallPredict]).
Proof.
  intros svc file img m log Hct Hdec Hm Hrun.
  unfold predict_disease, try_except, predict_try.
  rewrite Hct. cbn [negb].
  unfold bindM at 1, lift at 1, decode_upload. rewrite Hdec.
  unfold bindM at 1, emit. rewrite Hm.
  unfold bindM at 1. unfold bindM at 1, lift at 1, run_model. rewrite Hrun.
  simpl. rewrite <- app_assoc. reflexivity.
Qed.

Lemma predict_empty_output_row_witness :
  predict_disease (service_with [] no_kb_files) png_upload [] =
    (Raise (HTTPException 500
              "Prediction failed: attempt to get argmax of an empty sequence"),
     [CallPreprocess; CallPredict]).
Proof.
  exact (predict_empty_output_row (service_with [] no_kb_files) png_upload rgb_pixel
           (create_dummy_model (fun _ => [])) [] eq_refl eq_refl eq_refl eq_refl).
Defined.

(* ------------------------------------------------------------------ *)
(** ** Rounding, array sizes and the health endpoint *)






Lemma length_concat_uniform {A} : forall (l : list (list A)) k,
  (forall x, In x l -> length x = k) -> length (List.concat l) = (length l * k)%nat.
Proof.
  induction l as [|x l IH]; intros k H; simpl; [reflexivity|].
  rewrite length_app, (H x (or_introl eq_refl)), (IH k); [lia|].
  intros y Hy. apply H. now right.
Qed.

(** [preprocess_image] always yields as many values as its shape
    announces: height x width x bands of the source mode. *)
Theorem preprocess_data_matches_shape : forall filt img w h,
  let a := preprocess_image filt img (w, h) in
  length (arr_data a) = fold_right Nat.mul 1%nat (shape a) /\
  length (arr_data a) = (h * w * bands (im_mode img))%nat.
Proof.
  intros filt img w h a.
  assert (Hlen : length (arr_data a) = (h * w * bands (im_mode img))%nat).
  { subst a. cbn [preprocess_image expand_dims0 div_scalar astype_float32 np_array
                  resize arr_data im_pixels].
    rewrite !length_map.
    rewrite (length_concat_uniform _ (bands (im_mode img))).
    - rewrite (length_concat_uniform _ w).
      + now rewrite length_map, length_seq.
      + intros x Hx. apply in_map_iff in Hx as (y & <- & _).
        now rewrite length_map, length_seq.
    - intros px Hpx. apply in_concat in Hpx as (row & Hrow & Hpx).
      apply in_map_iff in Hrow as (y & <- & _).
      apply in_map_iff in Hpx as (x & <- & _).
      now rewrite length_map, length_seq. }
  split; [|exact Hlen].
  rewrite Hlen. subst a.
  cbn [preprocess_image expand_dims0 div_scalar astype_float32 np_array resize
       shape im_mode im_width im_height].
  destruct (Nat.eqb_spec (bands (im_mode img)) 1) as [E|E]; simpl; lia.
Qed.


